(** * Lifecycle gate runner: [scripts/run-lifecycle-gates.py]

    A shallow embedding of the gate runner and the properties of its
    stage resolution, validation staging, execution order, failure
    aggregation and exit codes. *)

From Stdlib Require Import ZArith List String Ascii Bool Lia.
From Stdlib Require DecimalString.
Import ListNotations.

Open Scope list_scope.
Open Scope Z_scope.
Open Scope string_scope.

(** ** Python values

    The values [yaml.safe_load] builds: null, booleans, integers, floats,
    strings, sequences and mappings, and for the tags [!!binary], [!!set],
    [!!timestamp], [!!pairs] and [!!omap] bytes, sets, dates and tuples.
    A [dict] keeps its items in insertion order, which is the order in which
    [.items()] yields them; a set is carried by its elements in the order
    its iteration yields them.  A float is carried by its IEEE-754 bits and
    a date or datetime by its ISO text; the script only asks of them
    whether they are a string, a list or a mapping, whether they are
    truthy, and for their [str()]. *)

#[local] Set Warnings "-register-all".

Inductive pyval : Type :=
| PyNone
| PyBool (b : bool)
| PyInt (z : Z)
| PyFloat (bits : Z)
| PyStr (s : string)
| PyList (items : list pyval)
| PyDict (items : list (pyval * pyval))
| PyBytes (b : string)
| PyTuple (items : list pyval)
| PySet (items : list pyval)
| PyDate (iso : string).

(** The items of a mapping.  The keys of a Python [dict] are distinct;
    nothing below relies on it. *)
Definition dict : Type := list (pyval * pyval).

(** Exceptions the script can meet.  Only [ValueError] is caught by [main];
    a [UnicodeDecodeError] is a [ValueError].  [OSError] stands for itself
    and its subclasses ([FileNotFoundError], [PermissionError], ...),
    [YAMLError] for the errors of the YAML parser. *)
Inductive exn : Type :=
| ValueError (msg : string)
| AttributeError
| TypeError
| KeyError
| IndexError
| OSError
| YAMLError.

Inductive result (A : Type) : Type :=
| Ok (a : A)
| Raise (e : exn).
Arguments Ok {A} a.
Arguments Raise {A} e.

Definition rbind {A B : Type} (r : result A) (k : A -> result B) : result B :=
  match r with
  | Ok a => k a
  | Raise e => Raise e
  end.

Module Py.

(** [key == k] for a string [k]: a key that is not a string never equals
    one. *)
Definition key_is (k : string) (key : pyval) : bool :=
  match key with
  | PyStr s => String.eqb s k
  | _ => false
  end.

(** [d.get(k)] as an option; [None] when [k not in d]. *)
Fixpoint lookup (d : dict) (k : string) : option pyval :=
  match d with
  | [] => None
  | (key, v) :: rest => if key_is k key then Some v else lookup rest k
  end.

(** [k in d] *)
Definition contains (d : dict) (k : string) : bool :=
  match lookup d k with
  | Some _ => true
  | None => false
  end.

(** [d.get(k, default)] *)
Definition get (d : dict) (k : string) (default : pyval) : pyval :=
  match lookup d k with
  | Some v => v
  | None => default
  end.

(** [all(isinstance(x, str) for x in l)], returning the strings. *)
Fixpoint all_str (l : list pyval) : option (list string) :=
  match l with
  | [] => Some []
  | PyStr s :: rest =>
      match all_str rest with
      | Some ss => Some (s :: ss)
      | None => None
      end
  | _ :: _ => None
  end.

(** [isinstance(v, list) and all(isinstance(x, str) for x in v)],
    returning the value as a [List[str]]. *)
Definition as_str_list (v : pyval) : option (list string) :=
  match v with
  | PyList l => all_str l
  | _ => None
  end.

(** [bool(v)] *)
Definition truthy (v : pyval) : bool :=
  match v with
  | PyNone => false
  | PyBool b => b
  | PyInt z => negb (Z.eqb z 0)
  | PyFloat bits => negb (Z.eqb (Z.land bits (2 ^ 63 - 1)) 0)
  | PyStr s => negb (String.eqb s "")
  | PyList l => match l with [] => false | _ :: _ => true end
  | PyDict d => match d with [] => false | _ :: _ => true end
  | PyBytes b => negb (String.eqb b "")
  | PyTuple l => match l with [] => false | _ :: _ => true end
  | PySet l => match l with [] => false | _ :: _ => true end
  | PyDate _ => true
  end.

(** [sep.join(l)] *)
Definition join (sep : string) (l : list string) : string :=
  String.concat sep l.

(** [str(n)] for [n = len(...)] and for a return code. *)
Definition str_nat (n : nat) : string :=
  DecimalString.NilZero.string_of_uint (Nat.to_uint n).

Definition str_int (z : Z) : string :=
  DecimalString.NilZero.string_of_int (Z.to_int z).

(** ["-" * 60] and ["=" * 60] *)
Fixpoint repeat_str (s : string) (n : nat) : string :=
  match n with
  | O => ""
  | S n' => s ++ repeat_str s n'
  end.

Definition newline : string := String (ascii_of_nat 10) EmptyString.

End Py.

(** ** The loaded configuration

    [load_config] returns the parsed mapping after checking that its
    ["stages"] and ["gates"] are mappings and its ["current_stage"] a string.
    The rest of the script reads only these three keys, so the loaded
    configuration is the record of the three checked fields. *)

Record Config : Type := mkConfig {
  stages : dict;
  gates : dict;
  current_stage : string
}.

(** The parsed command line ([argparse]). *)
Record Args : Type := mkArgs {
  arg_config : string;
  arg_stage : string;
  arg_list : bool
}.

Definition DEFAULT_CONFIG_PATH : string := "lifecycle-stage.yaml".

Definition default_args : Args :=
  {| arg_config := DEFAULT_CONFIG_PATH; arg_stage := ""; arg_list := false |}.

(** ** The environment of one invocation

    What the script takes from outside itself: the file system it reads
    the configuration from, the interpreter's built-ins it formats with,
    and the child processes it runs. *)

(** What sits at a path. *)
Inductive file : Type :=
| Missing
| Unreadable (e : exn)
| Holds (document : pyval).

Class Environment : Type := {
  (** The file system, at the path a [Path(s)] stands for; a [Path] is
      carried by the string [s] it was made from.  [Missing]:
      [path.exists()] is false.  [Unreadable e]: testing, opening, decoding
      or parsing the file raises [e].  [Holds document]: [yaml.safe_load]
      returns [document]. *)
  file_at : string -> file;

  (** [str(Path(s))]: the path as [pathlib] writes it. *)
  path_str : string -> string;

  (** [str(v)] of the interpreter, used by the f-strings for a value that
      is not already a string. *)
  py_str : pyval -> string;

  (** [s.strip()] for a string and for bytes, and the characters
      [for c in s] yields. *)
  py_strip : string -> string;
  py_strip_bytes : string -> string;
  py_chars : string -> list string;

  (** Child processes: [subprocess.run(command, cwd=cwd, check=False)]
      either raises, when the command cannot be launched, or takes the
      world in which the child starts to the world it leaves behind, with
      its return code.  A child that is launched runs to its end. *)
  World : Type;
  subprocess_run : World -> list string -> string -> result (World * Z);

  (** [Path(__file__).resolve().parents[1]] *)
  repo_root : string
}.

Section Runner.

Context {env : Environment}.

(** [f"{v}"] *)
Definition format (v : pyval) : string :=
  match v with
  | PyStr s => s
  | _ => py_str v
  end.

(** The document a path holds, when it holds one. *)
Definition config_file (path : string) : option pyval :=
  match file_at path with
  | Holds document => Some document
  | _ => None
  end.

(** *** [load_config] *)
Definition load_config (path : string) : result Config :=
  match file_at path with
  | Missing => Raise (ValueError ("Config file not found: " ++ path_str path))
  | Unreadable e => Raise e
  | Holds data =>
      match data with
      | PyDict d =>
          match Py.lookup d "stages" with
          | Some (PyDict the_stages) =>
              match Py.lookup d "gates" with
              | Some (PyDict the_gates) =>
                  match Py.lookup d "current_stage" with
                  | Some (PyStr name) =>
                      Ok {| stages := the_stages;
                            gates := the_gates;
                            current_stage := name |}
                  | _ =>
                      Raise (ValueError
                        "Lifecycle config must define string field 'current_stage'")
                  end
              | _ =>
                  Raise (ValueError
                    "Lifecycle config must define a 'gates' mapping")
              end
          | _ =>
              Raise (ValueError
                "Lifecycle config must define a 'stages' mapping")
          end
      | _ => Raise (ValueError "Lifecycle config must be a YAML mapping")
      end
  end.

(** *** [validate_gate_definitions] *)

(** The body of the loop, for one item of [gates]. *)
Definition validate_gate (gate_name gate : pyval) : result unit :=
  match gate with
  | PyDict g =>
      let command := Py.get g "command" PyNone in
      match Py.as_str_list command with
      | Some (_ :: _) => Ok tt
      | _ =>
          Raise (ValueError
            ("Gate '" ++ format gate_name
             ++ "' must define non-empty string list field 'command'"))
      end
  | _ =>
      Raise (ValueError ("Gate '" ++ format gate_name ++ "' must be a mapping"))
  end.

Fixpoint validate_gates (items : dict) : result unit :=
  match items with
  | [] => Ok tt
  | (gate_name, gate) :: rest =>
      rbind (validate_gate gate_name gate) (fun _ => validate_gates rest)
  end.

Definition validate_gate_definitions (config : Config) : result unit :=
  validate_gates (gates config).

(** *** [resolve_stage] *)
Definition resolve_stage (config : Config) (override_stage : string)
  : result (string * dict) :=
  let stage_name :=
    if String.eqb override_stage "" then current_stage config
    else override_stage in
  match Py.lookup (stages config) stage_name with
  | Some (PyDict stage_config) =>
      let required_gates := Py.get stage_config "required_gates" (PyList []) in
      match Py.as_str_list required_gates with
      | Some _ => Ok (stage_name, stage_config)
      | None =>
          Raise (ValueError
            ("Stage '" ++ stage_name
             ++ "' must define 'required_gates' as a list of gate names"))
      end
  | _ => Raise (ValueError ("Unknown lifecycle stage: " ++ stage_name))
  end.

(** ** Effects

    The script prints lines and runs child processes.  A computation
    takes the state before it to its value, or the exception it raises,
    and the state after it.  [calls] is the log of the child processes
    run so far, oldest first: for which gate, with which command, from
    which world to which, with which return code. *)

Record Call : Type := mkCall {
  call_gate : string;
  call_command : list string;
  call_cwd : string;
  call_before : World;
  call_returncode : Z;
  call_after : World
}.

Record State : Type := mkState {
  world : World;
  stdout : list string;
  calls : list Call
}.

Definition M (A : Type) : Type := State -> result A * State.

Definition ret {A : Type} (a : A) : M A := fun st => (Ok a, st).

Definition raise {A : Type} (e : exn) : M A := fun st => (Raise e, st).

Definition bind {A B : Type} (m : M A) (k : A -> M B) : M B :=
  fun st =>
    match m st with
    | (Ok a, st') => k a st'
    | (Raise e, st') => (Raise e, st')
    end.

Notation "x <- m ;; k" := (bind m (fun x => k))
  (at level 61, m at next level, right associativity).
Notation "m ;; k" := (bind m (fun _ => k))
  (at level 61, right associativity).

(** [print(line)] *)
Definition print (line : string) : M unit :=
  fun st =>
    (Ok tt, {| world := world st;
               stdout := (stdout st ++ [line])%list;
               calls := calls st |}).

(** [subprocess.run(command, cwd=cwd, check=False).returncode], the child
    logged under the gate it is run for.  An empty command raises
    [IndexError] (there is no program to take from it); a command that
    cannot be launched raises what the environment says, and no child is
    logged. *)
Definition run_child (gate_name : string) (command : list string)
    (cwd : string) : M Z :=
  fun st =>
    match command with
    | [] => (Raise IndexError, st)
    | _ :: _ =>
        match subprocess_run (world st) command cwd with
        | Ok (after, returncode) =>
            (Ok returncode,
             {| world := after;
                stdout := stdout st;
                calls := (calls st ++
                          [mkCall gate_name command cwd (world st)
                             returncode after])%list |})
        | Raise e => (Raise e, st)
        end
    end.

Fixpoint for_each {A : Type} (body : A -> M unit) (l : list A) : M unit :=
  match l with
  | [] => ret tt
  | x :: rest => body x ;; for_each body rest
  end.

(** [for x in v]: the items of a list, a tuple or a set, the keys of a
    mapping, the characters of a string, the bytes of a bytes object as
    integers; nothing else here is iterable. *)
Definition iterate (v : pyval) : option (list pyval) :=
  match v with
  | PyList l => Some l
  | PyTuple l => Some l
  | PySet l => Some l
  | PyDict d => Some (map fst d)
  | PyStr s => Some (map PyStr (py_chars s))
  | PyBytes b =>
      Some (map (fun c => PyInt (Z.of_nat (nat_of_ascii c)))
                (list_ascii_of_string b))
  | _ => None
  end.

(** [v.strip()]: strings and bytes have the method, nothing else here. *)
Definition strip (v : pyval) : option pyval :=
  match v with
  | PyStr s => Some (PyStr (py_strip s))
  | PyBytes b => Some (PyBytes (py_strip_bytes b))
  | _ => None
  end.

(** *** [print_stage_matrix] *)

(** The body of the loop, for one item of [stages]. *)
Definition print_stage (stage_name stage : pyval) : M unit :=
  match stage with
  | PyDict s =>
      match strip (Py.get s "description" (PyStr "")) with
      | Some description =>
          let required := Py.get s "required_gates" (PyList []) in
          print (format stage_name ++ ": " ++ format description) ;;
          match iterate required with
          | Some required_items =>
              for_each (fun gate => print ("  - " ++ format gate))
                       required_items ;;
              if Py.truthy required then ret tt else print "  - (none)"
          | None => raise TypeError
          end
      | None => raise AttributeError
      end
  | _ => raise AttributeError
  end.

Definition print_stage_matrix (config : Config) : M unit :=
  print "Lifecycle stages and required gates:" ;;
  print (Py.repeat_str "-" 60) ;;
  for_each (fun item : pyval * pyval => print_stage (fst item) (snd item))
           (stages config) ;;
  print (Py.repeat_str "-" 60) ;;
  print ("Current stage: " ++ current_stage config).

(** *** [run_gate]

    [gate_config] is a gate of the catalog, which
    [validate_gate_definitions] has accepted; its ["command"] is read as
    the [List[str]] it was checked to be. *)
Definition run_gate (root : string) (gate_name : string) (gate_config : dict)
  : M Z :=
  let description := Py.get gate_config "description" (PyStr "") in
  match Py.lookup gate_config "command" with
  | None => raise KeyError
  | Some command =>
      print ("[GATE] " ++ gate_name) ;;
      (if Py.truthy description then print ("  " ++ format description)
       else ret tt) ;;
      match Py.as_str_list command with
      | None => raise TypeError
      | Some argv =>
          print ("  command: " ++ Py.join " " argv) ;;
          returncode <- run_child gate_name argv root ;;
          (if Z.eqb returncode 0
           then print ("[PASS] " ++ gate_name ++ Py.newline)
           else print ("[FAIL] " ++ gate_name ++ " (exit code "
                       ++ Py.str_int returncode ++ ")" ++ Py.newline)) ;;
          ret returncode
      end
  end.

(** *** [main] *)

(** The [for gate_name in required_gate_names] loop, returning
    [failures]. *)
Fixpoint run_required (catalog : dict) (names : list string)
    (failures : list string) : M (list string) :=
  match names with
  | [] => ret failures
  | gate_name :: rest =>
      match Py.lookup catalog gate_name with
      | None => raise KeyError
      | Some (PyDict gate_config) =>
          returncode <- run_gate repo_root gate_name gate_config ;;
          run_required catalog rest
            (if Z.eqb returncode 0 then failures
             else (failures ++ [gate_name])%list)
      | Some _ => raise AttributeError
      end
  end.

(** The [try] block. *)
Definition load_and_resolve (args : Args) : result (Config * string * dict) :=
  rbind (load_config (arg_config args)) (fun config =>
  rbind (validate_gate_definitions config) (fun _ =>
  rbind (resolve_stage config (arg_stage args)) (fun resolved =>
  Ok (config, fst resolved, snd resolved)))).

(** [stage_config] is the stage [resolve_stage] returned; its
    ["required_gates"] is read as the [List[str]] it was checked to be. *)
Definition main (args : Args) : M Z :=
  match load_and_resolve args with
  | Raise (ValueError msg) => print ("[ERROR] " ++ msg) ;; ret 2
  | Raise e => raise e
  | Ok (config, stage_name, stage_config) =>
      if arg_list args then
        print_stage_matrix config ;;
        ret 0
      else
        match Py.as_str_list (Py.get stage_config "required_gates" (PyList [])) with
        | None => raise TypeError
        | Some required_gate_names =>
            let catalog := gates config in
            let unknown_gates :=
              filter (fun gate => negb (Py.contains catalog gate))
                     required_gate_names in
            match unknown_gates with
            | _ :: _ =>
                print ("[ERROR] Stage '" ++ stage_name
                       ++ "' references unknown gates: "
                       ++ Py.join ", " unknown_gates) ;;
                ret 2
            | [] =>
                print ("Running lifecycle gates for stage: " ++ stage_name) ;;
                print (Py.repeat_str "-" 60) ;;
                failures <- run_required catalog required_gate_names [] ;;
                print (Py.repeat_str "=" 60) ;;
                match failures with
                | _ :: _ =>
                    print ("[SUMMARY] FAILED ("
                           ++ Py.str_nat (List.length failures)
                           ++ " gate(s)): " ++ Py.join ", " failures) ;;
                    ret 1
                | [] =>
                    print ("[SUMMARY] PASSED ("
                           ++ Py.str_nat (List.length required_gate_names)
                           ++ " gate(s))") ;;
                    ret 0
                end
            end
        end
  end.

(** [sys.exit(main())]: the status the process exits with.  An exception
    that leaves [main] ends the interpreter with status 1. *)
Definition exit_status (r : result Z) : Z :=
  match r with
  | Ok code => code
  | Raise _ => 1
  end.

Definition start (w : World) : State :=
  {| world := w; stdout := []; calls := [] |}.

(** What [main] returns or raises, the status the process exits with and
    the state it leaves, for one invocation in world [w]. *)
Definition returned (args : Args) (w : World) : result Z :=
  fst (main args (start w)).

Definition exit_code (args : Args) (w : World) : Z :=
  exit_status (returned args w).

Definition final_state (args : Args) (w : World) : State :=
  snd (main args (start w)).

(** The names of the gates run, in the order they were run. *)
Definition gates_run (st : State) : list string :=
  map call_gate (calls st).

End Runner.

(** ** A concrete environment

    The world is the list of commands run so far.  A child whose program is
    ["true"] returns 0; the program ["no-such-program"] cannot be launched;
    any other child returns 1. *)

Module Demo.

Definition Log : Type := list (list string).

Definition spawn (w : Log) (command : list string) (cwd : string)
  : result (Log * Z) :=
  match command with
  | program :: _ =>
      if String.eqb program "no-such-program" then Raise OSError
      else Ok ((w ++ [command])%list,
               if String.eqb program "true" then 0 else 1)
  | [] => Raise IndexError
  end.

Definition str_of (v : pyval) : string :=
  match v with
  | PyNone => "None"
  | PyBool true => "True"
  | PyBool false => "False"
  | PyInt z => Py.str_int z
  | _ => "<object>"
  end.

Definition strip_of (s : string) : string := s.

Definition chars_of (s : string) : list string :=
  map (fun c => String c EmptyString) (list_ascii_of_string s).

Definition root : string := "/repo".

(** [str(Path(s))] as far as dropping one leading ["./"]. *)
Definition path_of (s : string) : string :=
  match s with
  | String "." (String "/" rest) => rest
  | _ => s
  end.

(** One file, at the default path. *)
Definition only (document : pyval) (path : string) : file :=
  if String.eqb path DEFAULT_CONFIG_PATH then Holds document else Missing.

Definition gate (command : list string) : pyval :=
  PyDict [(PyStr "command", PyList (map PyStr command))].

Definition stage (required : list string) : pyval :=
  PyDict [(PyStr "required_gates", PyList (map PyStr required))].

(** The document a configuration is loaded from. *)
Definition document (config : Config) : pyval :=
  PyDict [(PyStr "current_stage", PyStr (current_stage config));
          (PyStr "stages", PyDict (stages config));
          (PyStr "gates", PyDict (gates config))].

(** [{current_stage: planning, stages: {planning: {required_gates: [lint]}},
     gates: {lint: {command: ["true"]}}}] *)
Definition passing : Config :=
  {| stages := [(PyStr "planning", stage ["lint"])];
     gates := [(PyStr "lint", gate ["true"])];
     current_stage := "planning" |}.

(** Three gates, of which the first and the last fail; a second stage
    that has no [required_gates] key. *)
Definition failing : Config :=
  {| stages := [(PyStr "planning", stage ["lint"; "build"; "test"]);
                (PyStr "release", PyDict [(PyStr "description", PyStr "Ship")])];
     gates := [(PyStr "lint", gate ["false"]);
               (PyStr "build", gate ["true"]);
               (PyStr "test", gate ["pytest"; "-q"])];
     current_stage := "planning" |}.

(** A stage that requires a gate the catalog does not have. *)
Definition dangling : Config :=
  {| stages := [(PyStr "planning", stage ["lint"; "ghost"])];
     gates := [(PyStr "lint", gate ["true"])];
     current_stage := "planning" |}.

(** A catalog with two offending gates: [build] has an empty command,
    [test] a command with a number in it. *)
Definition broken_gates : Config :=
  {| stages := [(PyStr "planning", stage ["lint"])];
     gates := [(PyStr "lint", gate ["true"]);
               (PyStr "build", PyDict [(PyStr "command", PyList [])]);
               (PyStr "test",
                PyDict [(PyStr "command", PyList [PyStr "pytest"; PyInt 3])])];
     current_stage := "planning" |}.

(** Stages of the wrong shape: [planning] is null, the [required_gates]
    of [build] is a string. *)
Definition odd_stages : Config :=
  {| stages := [(PyStr "planning", PyNone);
                (PyStr "build",
                 PyDict [(PyStr "required_gates", PyStr "lint")]);
                (PyStr "release", stage [])];
     gates := [(PyStr "lint", gate ["true"])];
     current_stage := "release" |}.


(** A stage described by bytes, and a stage whose required gates are a
    number. *)
Definition binary_description : Config :=
  {| stages := [(PyStr "planning",
                 PyDict [(PyStr "description", PyBytes "plan")])];
     gates := [];
     current_stage := "planning" |}.

Definition numeric_gates : Config :=
  {| stages := [(PyStr "planning", stage []);
                (PyStr "build", PyDict [(PyStr "required_gates", PyInt 3)])];
     gates := [];
     current_stage := "planning" |}.


(** The environment in which [doc] is what sits at the default path. *)
Definition env (doc : option pyval) : Environment :=
  {| file_at := fun path => match doc with
                            | Some d => only d path
                            | None => Missing
                            end;
     path_str := path_of;
     py_str := str_of;
     py_strip := strip_of;
     py_strip_bytes := strip_of;
     py_chars := chars_of;
     World := Log;
     subprocess_run := spawn;
     repo_root := root |}.

(** The environment in which reading the file at any path raises [e]. *)
Definition unreadable (e : exn) : Environment :=
  {| file_at := fun _ => Unreadable e;
     path_str := path_of;
     py_str := str_of;
     py_strip := strip_of;
     py_strip_bytes := strip_of;
     py_chars := chars_of;
     World := Log;
     subprocess_run := spawn;
     repo_root := root |}.

(** The environment in which [config] is what the default path holds. *)
Definition holding (config : Config) : Environment :=
  env (Some (document config)).

Definition list_mode : Args :=
  {| arg_config := DEFAULT_CONFIG_PATH; arg_stage := ""; arg_list := true |}.


End Demo.

Module Sample.

(** A configuration with two stages, the current one being [planning]. *)
Definition planning : dict := [(PyStr "required_gates", PyList [PyStr "lint"])].
Definition build : dict :=
  [(PyStr "description", PyStr "Build"); (PyStr "required_gates", PyList [])].

Definition config : Config :=
  {| stages := [(PyStr "planning", PyDict planning); (PyStr "build", PyDict build)];
     gates := [(PyStr "lint", Demo.gate ["true"])];
     current_stage := "planning" |}.

End Sample.

(** ** Vocabulary of the specification

    The conditions the specification words its properties with, as
    decidable predicates on the parsed document, and the names it gives to
    the errors, as predicates on the exception raised. *)

Module Spec.

Definition is_str (v : pyval) : bool :=
  match v with PyStr _ => true | _ => false end.

Definition is_mapping (v : pyval) : bool :=
  match v with PyDict _ => true | _ => false end.

(** A list whose every element is a string. *)
Definition is_list_of_strings (v : pyval) : bool :=
  match v with
  | PyList l => forallb is_str l
  | _ => false
  end.

(** A document is well shaped when it is a mapping whose [stages] and
    [gates] are present and mappings and whose [current_stage] is present
    and a string. *)
Definition has (d : dict) (k : string) (shape : pyval -> bool) : bool :=
  match Py.lookup d k with
  | Some v => shape v
  | None => false
  end.

Definition well_shaped (document : pyval) : bool :=
  match document with
  | PyDict d =>
      has d "stages" is_mapping && has d "gates" is_mapping
      && has d "current_stage" is_str
  | _ => false
  end.

(** The command of a gate is offending when it is absent, not a list,
    empty, or contains an element that is not a string. *)
Definition offending_command (command : option pyval) : bool :=
  match command with
  | None => true
  | Some (PyList []) => true
  | Some (PyList l) => existsb (fun c => negb (is_str c)) l
  | Some _ => true
  end.

(** A gate is offending when it is not a mapping or its command is
    offending. *)
Definition offending_gate (gate : pyval) : bool :=
  match gate with
  | PyDict g => offending_command (Py.lookup g "command")
  | _ => true
  end.

(** The stage a run is for: the override when there is one, otherwise
    the configuration's current stage. *)
Definition resolved_name (config : Config) (override_stage : string) : string :=
  if String.eqb override_stage "" then current_stage config else override_stage.

(** A stage definition: a mapping whose [required_gates], when present,
    is a list of strings. *)
Definition stage_def (stage : pyval) : bool :=
  match stage with
  | PyDict s =>
      match Py.lookup s "required_gates" with
      | Some v => is_list_of_strings v
      | None => true
      end
  | _ => false
  end.

(** A valid configuration: every stage is a stage definition and
    [current_stage] is one of the stages. *)
Definition valid_config (config : Config) : bool :=
  Py.contains (stages config) (current_stage config)
  && forallb (fun item : pyval * pyval => stage_def (snd item)) (stages config).

(** The required gates of a resolved stage, none when the key is
    absent. *)
Definition required_gates_of (stage_config : dict) : list string :=
  match Py.as_str_list (Py.get stage_config "required_gates" (PyList [])) with
  | Some names => names
  | None => []
  end.

Definition known (config : Config) (gate_name : string) : bool :=
  Py.contains (gates config) gate_name.

(** A stage the matrix can show: a mapping whose [description], when
    present, is a string or bytes (the values that can be stripped) and
    whose [required_gates], when present, can be iterated over. *)
Definition iterable (v : pyval) : bool :=
  match v with
  | PyList _ | PyDict _ | PyStr _ | PyBytes _ | PyTuple _ | PySet _ => true
  | _ => false
  end.

Definition strippable (v : pyval) : bool :=
  match v with
  | PyStr _ | PyBytes _ => true
  | _ => false
  end.

Definition printable_stage (stage : pyval) : bool :=
  match stage with
  | PyDict s =>
      strippable (Py.get s "description" (PyStr ""))
      && iterable (Py.get s "required_gates" (PyList []))
  | _ => false
  end.

Definition printable (config : Config) : bool :=
  forallb (fun item : pyval * pyval => printable_stage (snd item)) (stages config).



Definition InvalidGateDefinition (gate_name : string) (e : exn) : Prop :=
  e = ValueError ("Gate '" ++ gate_name ++ "' must be a mapping")
  \/ e = ValueError ("Gate '" ++ gate_name
                     ++ "' must define non-empty string list field 'command'").



(** The line an unknown gate reference is reported with. *)
Definition UnknownGateReference (stage_name : string) (unknown : list string)
  : string :=
  "[ERROR] Stage '" ++ stage_name ++ "' references unknown gates: "
  ++ Py.join ", " unknown.

Definition summary_failed (failures : list string) : string :=
  "[SUMMARY] FAILED (" ++ Py.str_nat (List.length failures) ++ " gate(s)): "
  ++ Py.join ", " failures.

Definition summary_passed (count : nat) : string :=
  "[SUMMARY] PASSED (" ++ Py.str_nat count ++ " gate(s))".

End Spec.

Section Execution.

Context {env : Environment}.

(** A log of child processes is sequential from [w] to [w'] when each
    child starts in the world the one before it left behind, the first
    in [w], the last leaving [w'], and each entry is what
    [subprocess.run] made of its command there. *)
Inductive sequential : World -> list Call -> World -> Prop :=
| sequential_nil (w : World) : sequential w [] w
| sequential_cons (w : World) (c : Call) (cs : list Call) (w' : World) :
    call_before c = w ->
    subprocess_run w (call_command c) (call_cwd c)
      = Ok (call_after c, call_returncode c) ->
    sequential (call_after c) cs w' ->
    sequential w (c :: cs) w'.

Definition failed (c : Call) : bool := negb (Z.eqb (call_returncode c) 0).

(** The gates of a log that exited non-zero, in the order they ran. *)
Definition failed_gates (cs : list Call) : list string :=
  map call_gate (filter failed cs).

(** A call runs the command the catalog declares for its gate, in the
    repository root. *)
Definition runs_declared (config : Config) (c : Call) : Prop :=
  exists g command,
    Py.lookup (gates config) (call_gate c) = Some (PyDict g)
    /\ Py.lookup g "command" = Some command
    /\ Py.as_str_list command = Some (call_command c)
    /\ call_cwd c = repo_root.

(** The run of [names] stops after the children [new] at the next gate,
    whose declared command cannot be launched in the world [after] that
    they left: launching it raises [e]. *)
Definition stops_at (config : Config) (names : list string) (new : list Call)
    (after : World) (e : exn) : Prop :=
  exists failing rest g command argv,
    names = (map call_gate new ++ failing :: rest)%list
    /\ Py.lookup (gates config) failing = Some (PyDict g)
    /\ Py.lookup g "command" = Some command
    /\ Py.as_str_list command = Some argv
    /\ subprocess_run after argv repo_root = Raise e.

(** A run reaches the execution phase when the configuration loads,
    validates and resolves, list mode is off and every required gate is
    in the catalog. *)
Definition reaches_execution (args : Args) (config : Config)
    (stage_name : string) (stage_config : dict) : Prop :=
  load_and_resolve args = Ok (config, stage_name, stage_config)
  /\ arg_list args = false
  /\ forallb (Spec.known config) (Spec.required_gates_of stage_config) = true.

(** [st'] is [st] with more lines printed: same world, same children. *)
Definition only_prints (st st' : State) : Prop :=
  world st' = world st
  /\ calls st' = calls st
  /\ exists lines, stdout st' = (stdout st ++ lines)%list.

(** A computation that only prints, whatever it returns or raises. *)
Definition quiet {A : Type} (m : M A) : Prop :=
  forall st, only_prints st (snd (m st)).

(** A computation that returns, whatever the state. *)
Definition returns {A : Type} (m : M A) : Prop :=
  forall st, exists a, fst (m st) = Ok a.


End Execution.

(** ** What an invocation prints

    The lines the printing functions put out, read off their [print]
    calls, as functions of the configuration and of the log of children. *)

Section Output.

Context {env : Environment}.


(** The last line [run_gate] prints for a child. *)
Definition verdict_line (c : Call) : string :=
  if Z.eqb (call_returncode c) 0
  then "[PASS] " ++ call_gate c ++ Py.newline
  else "[FAIL] " ++ call_gate c ++ " (exit code "
       ++ Py.str_int (call_returncode c) ++ ")" ++ Py.newline.

(** The lines [run_gate] prints before it launches the command of a gate
    with that description. *)
Definition opening_lines (description : pyval) (gate_name : string)
    (command : list string) : list string :=
  ("[GATE] " ++ gate_name)
  :: List.app
       (if Py.truthy description then ["  " ++ format description] else [])
       ["  command: " ++ Py.join " " command].

(** The lines [run_gate] prints around a child, for a gate with that
    description. *)
Definition gate_lines (description : pyval) (c : Call) : list string :=
  List.app (opening_lines description (call_gate c) (call_command c))
           [verdict_line c].

(** [gates[name].get("description", "")] *)
Definition description_of (catalog : dict) (gate_name : string) : pyval :=
  match Py.lookup catalog gate_name with
  | Some (PyDict g) => Py.get g "description" (PyStr "")
  | _ => PyStr ""
  end.

(** The summary line of a run with that log. *)
Definition summary_line (required : list string) (cs : list Call) : string :=
  match failed_gates cs with
  | [] => Spec.summary_passed (List.length required)
  | _ :: _ => Spec.summary_failed (failed_gates cs)
  end.

(** Everything a run that reaches the execution phase prints. *)
Definition transcript (config : Config) (stage_name : string)
    (required : list string) (cs : list Call) : list string :=
  ("Running lifecycle gates for stage: " ++ stage_name)
  :: Py.repeat_str "-" 60
  :: List.app
       (flat_map
          (fun c => gate_lines (description_of (gates config) (call_gate c)) c)
          cs)
       [Py.repeat_str "=" 60; summary_line required cs].




End Output.

(** * Properties *)

(** ** Lists of strings *)

Lemma all_str_some (l : list pyval) (ss : list string) :
  Py.all_str l = Some ss -> l = map PyStr ss.
Proof.
  revert ss; induction l as [|x l IH]; intros ss H; simpl in H.
  - injection H as <-. reflexivity.
  - destruct x; try discriminate.
    destruct (Py.all_str l) as [ss'|] eqn:E; try discriminate.
    injection H as <-. simpl. f_equal. apply IH. reflexivity.
Qed.

Lemma all_str_none (l : list pyval) :
  Py.all_str l = None <-> forallb Spec.is_str l = false.
Proof.
  induction l as [|x l IH]; simpl.
  - split; discriminate.
  - destruct x; simpl; try (split; reflexivity).
    destruct (Py.all_str l) as [ss|].
    + split; [discriminate|]. intros H. apply IH in H. discriminate.
    + split; [intros _; apply IH; reflexivity | reflexivity].
Qed.

Lemma as_str_list_none (v : pyval) :
  Py.as_str_list v = None <-> Spec.is_list_of_strings v = false.
Proof.
  destruct v; simpl; try (split; reflexivity). apply all_str_none.
Qed.

Lemma as_str_list_some (v : pyval) :
  Spec.is_list_of_strings v = true -> exists names, Py.as_str_list v = Some names.
Proof.
  intros H. destruct (Py.as_str_list v) as [names|] eqn:E.
  - exists names. reflexivity.
  - apply as_str_list_none in E. congruence.
Qed.

Lemma contains_lookup (d : dict) (k : string) :
  Py.contains d k = true <-> exists v, Py.lookup d k = Some v.
Proof.
  unfold Py.contains. destruct (Py.lookup d k) as [v|].
  - split; [intros _; exists v; reflexivity | reflexivity].
  - split; [discriminate | intros [v H]; discriminate].
Qed.


Lemma lookup_In (d : dict) (k : string) (v : pyval) :
  Py.lookup d k = Some v -> In (PyStr k, v) d.
Proof.
  induction d as [|[key x] d IH]; simpl; [discriminate|].
  destruct (Py.key_is k key) eqn:E.
  - intros H. injection H as <-. left.
    destruct key; simpl in E; try discriminate.
    apply String.eqb_eq in E. subst. reflexivity.
  - intros H. right. apply IH. exact H.
Qed.

(** ** The offending commands are the ones the validation rejects *)

Lemma offending_command_spec (g : dict) :
  Spec.offending_command (Py.lookup g "command") = true <->
  (forall c cs, Py.as_str_list (Py.get g "command" PyNone) <> Some (c :: cs)).
Proof.
  unfold Py.get. destruct (Py.lookup g "command") as [v|]; simpl.
  - destruct v; simpl; try (split; [intros _ c cs; discriminate | reflexivity]).
    destruct items as [|x l].
    + simpl. split; [intros _ c cs; discriminate | reflexivity].
    + split.
      * intros H c cs E.
        apply all_str_some in E. rewrite E in H.
        clear E. revert H.
        assert (A : forall ss, existsb (fun c0 => negb (Spec.is_str c0))
                                 (map PyStr ss) = false)
          by (induction ss; simpl; auto).
        rewrite A. discriminate.
      * intros H.
        destruct (existsb (fun c => negb (Spec.is_str c)) (x :: l)) eqn:E;
          [reflexivity|].
        exfalso.
        assert (A : forallb Spec.is_str (x :: l) = true).
        { clear H. revert E. generalize (x :: l). induction l0; simpl; auto.
          intros E. apply orb_false_iff in E. destruct E as [E1 E2].
          apply negb_false_iff in E1. rewrite E1. auto. }
        destruct (Py.all_str (x :: l)) as [ss|] eqn:S.
        -- destruct ss as [|c cs].
           ++ apply all_str_some in S. discriminate.
           ++ apply (H c cs). reflexivity.
        -- apply all_str_none in S. congruence.
  - split; [intros _ c cs; discriminate | reflexivity].
Qed.

(** ** Loading, validation and resolution *)

Ltac break_match :=
  match goal with
  | |- context [match ?x with _ => _ end] => destruct x eqn:?
  | H : context [match ?x with _ => _ end] |- _ => destruct x eqn:?
  end.

Section Staging.

Context {env : Environment}.

Lemma config_file_holds (path : string) (document : pyval) :
  config_file path = Some document <-> file_at path = Holds document.
Proof.
  unfold config_file. destruct (file_at path); split; congruence.
Qed.

(** What the loader raises is a [ValueError] of its own or what reading
    the file raised. *)
Lemma load_config_raises (path : string) (e : exn) :
  load_config path = Raise e ->
  (exists msg, e = ValueError msg) \/ file_at path = Unreadable e.
Proof.
  unfold load_config. intros H.
  destruct (file_at path) as [|e'|data].
  - left. injection H as <-. eexists. reflexivity.
  - right. injection H as <-. reflexivity.
  - left. repeat break_match; try discriminate;
      injection H as <-; eexists; reflexivity.
Qed.

Lemma load_config_ok (path : string) (config : Config) :
  load_config path = Ok config <->
  exists d,
    config_file path = Some (PyDict d)
    /\ Py.lookup d "stages" = Some (PyDict (stages config))
    /\ Py.lookup d "gates" = Some (PyDict (gates config))
    /\ Py.lookup d "current_stage" = Some (PyStr (current_stage config)).
Proof.
  unfold load_config. split.
  - intros H. destruct (file_at path) as [|e'|data] eqn:F; try discriminate.
    apply config_file_holds in F.
    repeat break_match; try discriminate.
    injection H as <-. simpl. eexists. repeat split; eassumption.
  - intros (d & F & S & G & C). apply config_file_holds in F.
    rewrite F, S, G, C. destruct config; reflexivity.
Qed.


Lemma load_config_unreadable (path : string) (e : exn) :
  file_at path = Unreadable e -> load_config path = Raise e.
Proof. unfold load_config. intros ->. reflexivity. Qed.


Lemma validate_gate_offending (gate_name gate : pyval) :
  Spec.offending_gate gate = true ->
  exists e, validate_gate gate_name gate = Raise e
            /\ Spec.InvalidGateDefinition (format gate_name) e.
Proof.
  unfold Spec.InvalidGateDefinition, validate_gate.
  destruct gate; simpl; try (intros _; eexists; split; [reflexivity|auto]).
  intros H. rewrite offending_command_spec in H.
  destruct (Py.as_str_list (Py.get items "command" PyNone)) as [[|c cs]|] eqn:E;
    try (eexists; split; [reflexivity|auto; fail]).
  exfalso. apply (H c cs). reflexivity.
Qed.

Lemma validate_gate_accepted (gate_name gate : pyval) :
  Spec.offending_gate gate = false -> validate_gate gate_name gate = Ok tt.
Proof.
  unfold validate_gate. destruct gate; simpl; try discriminate.
  intros H.
  destruct (Py.as_str_list (Py.get items "command" PyNone)) as [[|c cs]|] eqn:E;
    try reflexivity; exfalso;
    (assert (T : Spec.offending_command (Py.lookup items "command") = true);
     [apply offending_command_spec; intros; congruence | congruence]).
Qed.

(** The loop stops at the first offending gate, with that gate's error. *)
Lemma validate_gates_first (before after : dict) (gate_name gate : pyval) :
  forallb (fun item : pyval * pyval => negb (Spec.offending_gate (snd item)))
          before = true ->
  Spec.offending_gate gate = true ->
  validate_gates (before ++ (gate_name, gate) :: after)%list
  = validate_gate gate_name gate.
Proof.
  intros B O. induction before as [|[n g] before IH]; simpl.
  - destruct (validate_gate_offending gate_name gate O) as (e & -> & _).
    reflexivity.
  - simpl in B. apply andb_true_iff in B. destruct B as [B1 B2].
    apply negb_true_iff in B1.
    rewrite (validate_gate_accepted n g B1). simpl. apply IH. exact B2.
Qed.

(** Any offending gate makes the validation fail, on the first of them in
    declaration order. *)
Lemma validate_gates_offending (items : dict) (gate_name gate : pyval) :
  In (gate_name, gate) items ->
  Spec.offending_gate gate = true ->
  exists before first_name first after,
    items = (before ++ (first_name, first) :: after)%list
    /\ forallb (fun item : pyval * pyval =>
                  negb (Spec.offending_gate (snd item))) before = true
    /\ Spec.offending_gate first = true
    /\ validate_gates items = validate_gate first_name first.
Proof.
  intros I O. induction items as [|[n g] items IH]; [contradiction|].
  destruct (Spec.offending_gate g) eqn:G.
  - exists [], n, g, items. repeat split; auto.
    apply (validate_gates_first [] items n g); auto.
  - destruct I as [I|I]; [injection I as -> ->; congruence|].
    destruct (IH I) as (before & fn & f & after & E & B & F & V).
    exists ((n, g) :: before), fn, f, after. subst items.
    repeat split; auto.
    + simpl. rewrite G. simpl. exact B.
    + apply (validate_gates_first ((n, g) :: before)); auto.
      simpl. rewrite G. simpl. exact B.
Qed.

Lemma validate_gates_ok (items : dict) :
  validate_gates items = Ok tt <->
  forall gate_name gate,
    In (gate_name, gate) items -> Spec.offending_gate gate = false.
Proof.
  split.
  - intros V n g I. destruct (Spec.offending_gate g) eqn:O; [|reflexivity].
    destruct (validate_gates_offending items n g I O)
      as (before & fn & f & after & _ & _ & F & E).
    destruct (validate_gate_offending fn f F) as (e & R & _). congruence.
  - induction items as [|[n g] items IH]; intros H; simpl; [reflexivity|].
    rewrite (validate_gate_accepted n g (H n g (or_introl eq_refl))). simpl.
    apply IH. intros n' g' I. apply (H n' g'). right. exact I.
Qed.

Lemma validate_gates_raises (items : dict) (e : exn) :
  validate_gates items = Raise e -> exists msg, e = ValueError msg.
Proof.
  induction items as [|[n g] items IH]; simpl; [discriminate|].
  destruct (validate_gate n g) as [[]|e'] eqn:V; simpl.
  - exact IH.
  - intros H. injection H as <-. revert V. unfold validate_gate.
    intros V. repeat break_match; try discriminate;
      injection V as <-; eexists; reflexivity.
Qed.

(** A gate of a validated catalog is a mapping with a command that is a
    non-empty list of strings. *)
Lemma validated_gate (items : dict) (gate_name : string) (gate : pyval) :
  validate_gates items = Ok tt ->
  Py.lookup items gate_name = Some gate ->
  exists g command program arguments,
    gate = PyDict g
    /\ Py.lookup g "command" = Some command
    /\ Py.as_str_list command = Some (program :: arguments).
Proof.
  intros V L. apply lookup_In in L.
  pose proof (proj1 (validate_gates_ok items) V _ _ L) as O.
  destruct gate; simpl in O; try discriminate.
  exists items0.
  destruct (Py.lookup items0 "command") as [command|] eqn:C;
    [|discriminate].
  exists command.
  destruct (Py.as_str_list command) as [[|p a]|] eqn:A.
  - destruct command; simpl in A; try discriminate.
    destruct items1; [discriminate|]. apply all_str_some in A. discriminate.
  - exists p, a. auto.
  - exfalso.
    assert (T : Spec.offending_command (Py.lookup items0 "command") = true).
    { apply offending_command_spec. unfold Py.get. rewrite C.
      intros; congruence. }
    rewrite C in T. congruence.
Qed.

End Staging.

Lemma resolve_stage_raises (config : Config) (override_stage : string) (e : exn) :
  resolve_stage config override_stage = Raise e -> exists msg, e = ValueError msg.
Proof.
  unfold resolve_stage. intros H.
  repeat break_match; try discriminate; injection H as <-; eexists; reflexivity.
Qed.

Lemma resolve_stage_ok (config : Config) (override_stage stage_name : string)
    (stage_config : dict) :
  resolve_stage config override_stage = Ok (stage_name, stage_config) <->
  stage_name = Spec.resolved_name config override_stage
  /\ Py.lookup (stages config) stage_name = Some (PyDict stage_config)
  /\ exists names,
       Py.as_str_list (Py.get stage_config "required_gates" (PyList []))
       = Some names.
Proof.
  unfold resolve_stage, Spec.resolved_name. split.
  - intros H.
    destruct (Py.lookup (stages config)
                (if String.eqb override_stage "" then current_stage config
                 else override_stage)) as [v|] eqn:L; [|discriminate].
    destruct v; try discriminate.
    destruct (Py.as_str_list (Py.get items "required_gates" (PyList [])))
      as [names|] eqn:A; [|discriminate].
    injection H as <- <-. repeat split; auto. exists names. exact A.
  - intros (-> & L & names & A). rewrite L, A. reflexivity.
Qed.


Lemma resolve_stage_not_mapping (config : Config) (override_stage : string)
    (stage : pyval) :
  Py.lookup (stages config) (Spec.resolved_name config override_stage) = Some stage ->
  Spec.is_mapping stage = false ->
  resolve_stage config override_stage
  = Raise (ValueError ("Unknown lifecycle stage: "
                       ++ Spec.resolved_name config override_stage)).
Proof.
  intros L M. unfold resolve_stage. unfold Spec.resolved_name in *. rewrite L.
  destruct stage; try reflexivity. discriminate.
Qed.



Lemma required_gates_of_resolved (config : Config) (override_stage stage_name : string)
    (stage_config : dict) :
  resolve_stage config override_stage = Ok (stage_name, stage_config) ->
  Py.as_str_list (Py.get stage_config "required_gates" (PyList []))
  = Some (Spec.required_gates_of stage_config).
Proof.
  intros H. apply resolve_stage_ok in H. destruct H as (_ & _ & names & A).
  unfold Spec.required_gates_of. rewrite A. reflexivity.
Qed.

Section TryBlock.

Context {env : Environment}.

Lemma load_and_resolve_ok (args : Args) (config : Config)
    (stage_name : string) (stage_config : dict) :
  load_and_resolve args = Ok (config, stage_name, stage_config) <->
  load_config (arg_config args) = Ok config
  /\ validate_gate_definitions config = Ok tt
  /\ resolve_stage config (arg_stage args) = Ok (stage_name, stage_config).
Proof.
  unfold load_and_resolve. split.
  - intros H.
    destruct (load_config (arg_config args)) as [c|] eqn:L; [|discriminate].
    simpl in H.
    destruct (validate_gate_definitions c) as [[]|] eqn:V; [|discriminate].
    simpl in H.
    destruct (resolve_stage c (arg_stage args)) as [[n sc]|] eqn:R;
      [|discriminate].
    simpl in H. injection H as <- <- <-. rewrite V, R. auto.
  - intros (-> & V & R). simpl. rewrite V. simpl. rewrite R. reflexivity.
Qed.

(** What the [try] block raises is a [ValueError] or what reading the
    file raised. *)
Lemma load_and_resolve_raises (args : Args) (e : exn) :
  load_and_resolve args = Raise e ->
  (exists msg, e = ValueError msg)
  \/ file_at (arg_config args) = Unreadable e.
Proof.
  unfold load_and_resolve. intros H.
  destruct (load_config (arg_config args)) as [c|e1] eqn:L; simpl in H.
  - left. destruct (validate_gate_definitions c) as [[]|e2] eqn:V; simpl in H.
    + destruct (resolve_stage c (arg_stage args)) as [[n sc]|e3] eqn:R;
        simpl in H; [discriminate|].
      injection H as <-. apply (resolve_stage_raises _ _ _ R).
    + injection H as <-. apply (validate_gates_raises _ _ V).
  - injection H as <-. apply (load_config_raises _ _ L).
Qed.

(** What [main] does when the [try] block raises something that is not a
    [ValueError]: nothing, the exception leaves it. *)
Lemma main_uncaught (args : Args) (e : exn) (st : State) :
  load_and_resolve args = Raise e ->
  (forall msg, e <> ValueError msg) ->
  main args st = (Raise e, st).
Proof.
  unfold main. intros -> N. destruct e; try reflexivity.
  exfalso. apply (N msg). reflexivity.
Qed.

(** What [main] does when the [try] block raises: one error line, status
    2, no child process. *)
Lemma main_error (args : Args) (msg : string) (st : State) :
  load_and_resolve args = Raise (ValueError msg) ->
  main args st
  = (Ok 2, {| world := world st;
              stdout := List.app (stdout st) ["[ERROR] " ++ msg];
              calls := calls st |}).
Proof. unfold main. intros ->. reflexivity. Qed.

End TryBlock.

(** ** Printing runs nothing *)

Section Printing.

Context {env : Environment}.

Lemma only_prints_refl (st : State) : only_prints st st.
Proof.
  repeat split. exists []. rewrite app_nil_r. reflexivity.
Qed.

Lemma only_prints_trans (a b c : State) :
  only_prints a b -> only_prints b c -> only_prints a c.
Proof.
  intros (W1 & C1 & l1 & O1) (W2 & C2 & l2 & O2). repeat split.
  - congruence.
  - congruence.
  - exists (l1 ++ l2)%list. rewrite O2, O1, app_assoc. reflexivity.
Qed.

Lemma quiet_ret {A : Type} (a : A) : quiet (ret a).
Proof. intros st. apply only_prints_refl. Qed.

Lemma quiet_raise {A : Type} (e : exn) : quiet (@raise _ A e).
Proof. intros st. apply only_prints_refl. Qed.

Lemma quiet_print (line : string) : quiet (print line).
Proof. intros st. repeat split. exists [line]. reflexivity. Qed.

Lemma quiet_bind {A B : Type} (m : M A) (k : A -> M B) :
  quiet m -> (forall a, quiet (k a)) -> quiet (bind m k).
Proof.
  intros Hm Hk st. unfold bind. specialize (Hm st).
  destruct (m st) as [[a|e] st1]; simpl in *.
  - eapply only_prints_trans; [exact Hm | apply Hk].
  - exact Hm.
Qed.

Lemma quiet_for_each {A : Type} (body : A -> M unit) (l : list A) :
  (forall x, quiet (body x)) -> quiet (for_each body l).
Proof.
  intros H. induction l as [|x l IH]; simpl.
  - apply quiet_ret.
  - apply quiet_bind; [apply H | intros _; exact IH].
Qed.

Lemma quiet_print_stage (stage_name stage : pyval) :
  quiet (print_stage stage_name stage).
Proof.
  unfold print_stage.
  destruct stage; try apply quiet_raise.
  destruct (strip (Py.get items "description" (PyStr "")));
    [|apply quiet_raise].
  apply quiet_bind; [apply quiet_print | intros _].
  destruct (iterate (Py.get items "required_gates" (PyList [])));
    [|apply quiet_raise].
  apply quiet_bind.
  - apply quiet_for_each. intros x. apply quiet_print.
  - intros _. destruct (Py.truthy _); [apply quiet_ret | apply quiet_print].
Qed.

Lemma quiet_print_stage_matrix (config : Config) :
  quiet (print_stage_matrix config).
Proof.
  unfold print_stage_matrix.
  repeat (apply quiet_bind; [|intros _]); try apply quiet_print.
  apply quiet_for_each. intros [n s]. apply quiet_print_stage.
Qed.

Lemma returns_ret {A : Type} (a : A) : returns (ret a).
Proof. intros st. exists a. reflexivity. Qed.

Lemma returns_print (line : string) : returns (print line).
Proof. intros st. exists tt. reflexivity. Qed.

Lemma returns_bind {A B : Type} (m : M A) (k : A -> M B) :
  returns m -> (forall a, returns (k a)) -> returns (bind m k).
Proof.
  intros Hm Hk st. unfold bind. destruct (Hm st) as [a Ha].
  destruct (m st) as [[a'|e] st1]; simpl in Ha; [|discriminate].
  apply Hk.
Qed.

Lemma returns_for_each {A : Type} (body : A -> M unit) (l : list A) :
  (forall x, In x l -> returns (body x)) -> returns (for_each body l).
Proof.
  induction l as [|x l IH]; intros H; simpl.
  - apply returns_ret.
  - apply returns_bind; [apply H; left; reflexivity | intros _].
    apply IH. intros y I. apply H. right. exact I.
Qed.

Lemma returns_print_stage (stage_name stage : pyval) :
  Spec.printable_stage stage = true -> returns (print_stage stage_name stage).
Proof.
  unfold Spec.printable_stage, print_stage.
  destruct stage; try discriminate. intros H.
  apply andb_true_iff in H. destruct H as [D R].
  destruct (Py.get items "description" (PyStr "")); try discriminate;
    cbn [strip];
    (apply returns_bind; [apply returns_print | intros _];
     destruct (Py.get items "required_gates" (PyList [])) eqn:G;
     try discriminate; cbn [iterate];
     (apply returns_bind;
      [apply returns_for_each; intros x _; apply returns_print
      |intros _; break_match; (apply returns_ret || apply returns_print)])).
Qed.

Lemma returns_print_stage_matrix (config : Config) :
  Spec.printable config = true -> returns (print_stage_matrix config).
Proof.
  unfold Spec.printable, print_stage_matrix. intros H.
  repeat (apply returns_bind; [|intros _]); try apply returns_print.
  apply returns_for_each. intros [n s] I. simpl.
  apply returns_print_stage.
  rewrite forallb_forall in H. apply (H (n, s) I).
Qed.

(** List mode, once the [try] block is through. *)
Lemma main_list (args : Args) (config : Config) (stage_name : string)
    (stage_config : dict) (st : State) :
  load_and_resolve args = Ok (config, stage_name, stage_config) ->
  arg_list args = true ->
  only_prints st (snd (main args st))
  /\ (Spec.printable config = true -> fst (main args st) = Ok 0).
Proof.
  intros L A. unfold main. rewrite L, A. split.
  - apply quiet_bind; [apply quiet_print_stage_matrix | intros _; apply quiet_ret].
  - intros P. unfold bind.
    destruct (returns_print_stage_matrix config P st) as [[] R].
    destruct (print_stage_matrix config st) as [[[]|e] st1]; simpl in R;
      [reflexivity | discriminate].
Qed.

End Printing.

(** ** Running the required gates *)

Section Running.

Context {env : Environment}.

(** A gate whose command is launched: the child is logged, the gate's
    lines are printed and the child's return code returned. *)
Lemma run_gate_launched (root name : string) (g : dict) (command : pyval)
    (program : string) (arguments : list string) (st : State)
    (after : World) (rc : Z) :
  Py.lookup g "command" = Some command ->
  Py.as_str_list command = Some (program :: arguments) ->
  subprocess_run (world st) (program :: arguments) root = Ok (after, rc) ->
  run_gate root name g st
  = (Ok rc,
     {| world := after;
        stdout := List.app (stdout st)
                    (gate_lines (Py.get g "description" (PyStr ""))
                       (mkCall name (program :: arguments) root (world st)
                          rc after));
        calls := List.app (calls st)
                   [mkCall name (program :: arguments) root (world st)
                      rc after] |}).
Proof.
  intros C A S. unfold run_gate. rewrite C, A.
  unfold gate_lines, opening_lines, verdict_line.
  cbv [bind print run_child ret]. cbn [world stdout calls call_gate
    call_command call_returncode call_after].
  destruct (Py.truthy (Py.get g "description" (PyStr "")));
    cbn [world stdout calls]; rewrite S;
    cbn [fst snd world stdout calls];
    destruct (Z.eqb rc 0); cbn [world stdout calls List.app];
    repeat (rewrite <- app_assoc; cbn [List.app]); reflexivity.
Qed.

(** A gate whose command cannot be launched: the exception leaves
    [run_gate] after the gate's first lines; no child is logged. *)
Lemma run_gate_not_launched (root name : string) (g : dict) (command : pyval)
    (program : string) (arguments : list string) (st : State) (e : exn) :
  Py.lookup g "command" = Some command ->
  Py.as_str_list command = Some (program :: arguments) ->
  subprocess_run (world st) (program :: arguments) root = Raise e ->
  run_gate root name g st
  = (Raise e,
     {| world := world st;
        stdout := List.app (stdout st)
                    (opening_lines (Py.get g "description" (PyStr "")) name
                       (program :: arguments));
        calls := calls st |}).
Proof.
  intros C A S. unfold run_gate. rewrite C, A. unfold opening_lines.
  cbv [bind print run_child ret]. cbn [world stdout calls].
  destruct (Py.truthy (Py.get g "description" (PyStr "")));
    cbn [world stdout calls]; rewrite S; cbn [List.app];
    repeat (rewrite <- app_assoc; cbn [List.app]); reflexivity.
Qed.


(** The loop over a validated catalog in which every name is known.  It
    runs one child per name, in order, each in the world its predecessor
    left, until the names are through -- then it returns the names of the
    children that failed -- or a command cannot be launched -- then the
    exception leaves it. *)
Lemma run_required_outcome (config : Config) (names : list string) :
  validate_gate_definitions config = Ok tt ->
  forallb (Spec.known config) names = true ->
  forall (failures : list string) (st : State),
  exists (new : list Call) (after : World),
    sequential (world st) new after
    /\ Forall (runs_declared config) new
    /\ ((map call_gate new = names
         /\ run_required (gates config) names failures st
            = (Ok (failures ++ failed_gates new)%list,
               {| world := after;
                  stdout := List.app (stdout st)
                    (flat_map
                       (fun c => gate_lines
                                   (description_of (gates config) (call_gate c))
                                   c)
                       new);
                  calls := List.app (calls st) new |}))
        \/ (exists e lines,
              stops_at config names new after e
              /\ run_required (gates config) names failures st
                 = (Raise e,
                    {| world := after;
                       stdout := List.app (stdout st) lines;
                       calls := List.app (calls st) new |}))).
Proof.
  intros V. induction names as [|name names IH]; intros K failures st.
  - exists [], (world st). split; [apply sequential_nil|].
    split; [constructor|]. left. split; [reflexivity|].
    cbn [run_required flat_map]. unfold ret.
    rewrite !app_nil_r. destruct st; reflexivity.
  - cbn [forallb] in K. apply andb_true_iff in K. destruct K as [K1 K2].
    unfold Spec.known in K1. apply contains_lookup in K1.
    destruct K1 as [gate L].
    destruct (validated_gate _ _ _ V L) as (g & command & p & a & -> & C & A).
    cbn [run_required]. rewrite L. unfold bind.
    destruct (subprocess_run (world st) (p :: a) repo_root)
      as [[w1 rc]|e] eqn:S.
    + rewrite (run_gate_launched repo_root name g command p a st w1 rc C A S).
      set (c := mkCall name (p :: a) repo_root (world st) rc w1).
      match goal with
      | |- context [run_required _ names ?f ?s] =>
          destruct (IH K2 f s) as (new & after & Sq & D & H)
      end.
      cbn [world stdout calls] in *.
      exists (c :: new), after.
      split; [apply sequential_cons; auto|].
      split.
      { constructor; [|exact D]. exists g, command. cbn [call_gate call_command
          call_cwd]. auto. }
      subst c.
      destruct H as [(N & E)|(e & lines & St & E)].
      * left. split; [cbn [map call_gate]; f_equal; exact N|].
        rewrite E. cbn [flat_map call_gate]. f_equal.
        -- f_equal. unfold failed_gates. cbn [filter]. unfold failed at 2.
           cbn [call_returncode].
           destruct (Z.eqb rc 0); cbn [negb map call_gate];
             [reflexivity | rewrite <- app_assoc; reflexivity].
        -- f_equal.
           ++ rewrite <- app_assoc. f_equal. f_equal.
              unfold description_of. rewrite L. reflexivity.
           ++ rewrite <- app_assoc. reflexivity.
      * right. exists e.
        exists (gate_lines (Py.get g "description" (PyStr ""))
                  (mkCall name (p :: a) repo_root (world st) rc w1)
                ++ lines)%list.
        split.
        -- destruct St as (failing & rest & g' & command' & argv & N & St).
           exists failing, rest, g', command', argv.
           split; [cbn [map call_gate List.app]; f_equal; exact N | exact St].
        -- rewrite E. f_equal. f_equal; rewrite <- app_assoc; reflexivity.
    + rewrite (run_gate_not_launched repo_root name g command p a st e C A S).
      exists [], (world st).
      split; [apply sequential_nil|]. split; [constructor|].
      right. exists e.
      exists (opening_lines (Py.get g "description" (PyStr "")) name (p :: a)).
      split.
      * exists name, names, g, command, (p :: a). auto.
      * rewrite app_nil_r. reflexivity.
Qed.

Lemma known_filter (config : Config) (names : list string) :
  forallb (Spec.known config) names = true <->
  filter (fun gate => negb (Py.contains (gates config) gate)) names = [].
Proof.
  unfold Spec.known. induction names as [|n names IH]; simpl.
  - split; reflexivity.
  - destruct (Py.contains (gates config) n); simpl.
    + exact IH.
    + split; discriminate.
Qed.

(** The run aborts on an unknown gate reference. *)
Lemma main_unknown (args : Args) (config : Config) (stage_name : string)
    (stage_config : dict) (st : State) :
  load_and_resolve args = Ok (config, stage_name, stage_config) ->
  arg_list args = false ->
  forallb (Spec.known config) (Spec.required_gates_of stage_config) = false ->
  main args st
  = (Ok 2,
     {| world := world st;
        stdout := List.app (stdout st)
          [Spec.UnknownGateReference stage_name
             (filter (fun gate => negb (Spec.known config gate))
                     (Spec.required_gates_of stage_config))];
        calls := calls st |}).
Proof.
  intros L A U. unfold main. rewrite L, A.
  apply load_and_resolve_ok in L. destruct L as (_ & _ & R).
  rewrite (required_gates_of_resolved _ _ _ _ R).
  unfold Spec.known in *.
  destruct (filter (fun gate => negb (Py.contains (gates config) gate))
              (Spec.required_gates_of stage_config)) as [|u us] eqn:F.
  - apply (known_filter config) in F. unfold Spec.known in F. congruence.
  - reflexivity.
Qed.

(** The execution phase of an invocation, from its start: it goes through
    the required gates and returns, having printed the transcript, or it
    stops at a gate whose command cannot be launched. *)
Lemma main_outcome (args : Args) (w : World) (config : Config)
    (stage_name : string) (stage_config : dict) :
  reaches_execution args config stage_name stage_config ->
  exists (new : list Call) (after : World),
    sequential w new after
    /\ Forall (runs_declared config) new
    /\ ((map call_gate new = Spec.required_gates_of stage_config
         /\ main args (start w)
            = (Ok (match failed_gates new with [] => 0 | _ :: _ => 1 end),
               {| world := after;
                  stdout := transcript config stage_name
                              (Spec.required_gates_of stage_config) new;
                  calls := new |}))
        \/ (exists e lines,
              stops_at config (Spec.required_gates_of stage_config) new after e
              /\ main args (start w)
                 = (Raise e,
                    {| world := after; stdout := lines; calls := new |}))).
Proof.
  intros (L & A & K). unfold main. rewrite L, A.
  apply load_and_resolve_ok in L. destruct L as (_ & V & R).
  rewrite (required_gates_of_resolved _ _ _ _ R).
  pose proof (proj1 (known_filter config _) K) as F. rewrite F.
  cbv [bind print start]. cbn [world stdout calls List.app].
  match goal with
  | |- context [run_required _ _ [] ?s] =>
      destruct (run_required_outcome config _ V K [] s)
        as (new & after & Sq & D & H)
  end.
  cbn [world stdout calls List.app] in *.
  exists new, after. split; [exact Sq|]. split; [exact D|].
  destruct H as [(N & E)|(e & lines & St & E)].
  - left. split; [exact N|]. rewrite E. cbn [List.app].
    unfold transcript, summary_line.
    destruct (failed_gates new) as [|f fs]; cbv [ret];
      cbn [world stdout calls List.app];
      repeat rewrite <- app_assoc; reflexivity.
  - right. exists e. eexists. split; [exact St|]. rewrite E. reflexivity.
Qed.

End Running.

(** ** Stage resolution *)

Lemma valid_stage (config : Config) (name : string) (stage : pyval) :
  Spec.valid_config config = true ->
  Py.lookup (stages config) name = Some stage ->
  Spec.stage_def stage = true.
Proof.
  unfold Spec.valid_config. intros V L.
  apply andb_true_iff in V. destruct V as [_ V].
  rewrite forallb_forall in V. apply (V (PyStr name, stage)).
  apply lookup_In. exact L.
Qed.

Lemma resolve_stage_def (config : Config) (override_stage : string) (stage : pyval) :
  Py.lookup (stages config) (Spec.resolved_name config override_stage) = Some stage ->
  Spec.stage_def stage = true ->
  exists stage_config,
    stage = PyDict stage_config
    /\ resolve_stage config override_stage
       = Ok (Spec.resolved_name config override_stage, stage_config).
Proof.
  intros L D. destruct stage; try discriminate. exists items. split; [reflexivity|].
  apply resolve_stage_ok. repeat split; auto.
  simpl in D. unfold Py.get.
  destruct (Py.lookup items "required_gates") as [v|].
  - apply as_str_list_some. exact D.
  - exists []. reflexivity.
Qed.

(** C5: on a valid configuration, resolving with the empty override
    returns the current stage's name with [stages[current_stage]], and
    resolving with a non-empty override [X] that is a key of [stages]
    returns [X] with [stages[X]], whatever the current stage is. *)
Theorem resolve_stage_precedence (config : Config) :
  Spec.valid_config config = true ->
  (exists stage_config,
     Py.lookup (stages config) (current_stage config) = Some (PyDict stage_config)
     /\ resolve_stage config "" = Ok (current_stage config, stage_config))
  /\ (forall X,
        X <> "" ->
        Py.contains (stages config) X = true ->
        exists stage_config,
          Py.lookup (stages config) X = Some (PyDict stage_config)
          /\ resolve_stage config X = Ok (X, stage_config)).
Proof.
  intros V. split.
  - pose proof V as V'. unfold Spec.valid_config in V'.
    apply andb_true_iff in V'. destruct V' as [C _].
    apply contains_lookup in C. destruct C as [stage L].
    destruct (resolve_stage_def config "" stage L (valid_stage _ _ _ V L))
      as (sc & -> & R).
    exists sc. split; [exact L | exact R].
  - intros X N C. apply contains_lookup in C. destruct C as [stage L].
    assert (E : Spec.resolved_name config X = X).
    { unfold Spec.resolved_name. destruct (String.eqb X "") eqn:Q; [|reflexivity].
      apply String.eqb_eq in Q. contradiction. }
    rewrite <- E in L.
    destruct (resolve_stage_def config X stage L (valid_stage _ _ _ V L))
      as (sc & -> & R).
    rewrite E in *. exists sc. split; [exact L | exact R].
Qed.

Lemma resolve_stage_precedence_witness :
  Spec.valid_config Sample.config = true
  /\ (exists stage_config,
        Py.lookup (stages Sample.config) "planning" = Some (PyDict stage_config)
        /\ resolve_stage Sample.config "" = Ok ("planning", stage_config))
  /\ (exists stage_config,
        Py.lookup (stages Sample.config) "build" = Some (PyDict stage_config)
        /\ resolve_stage Sample.config "build" = Ok ("build", stage_config)).
Proof.
  split; [reflexivity|].
  destruct (resolve_stage_precedence Sample.config eq_refl) as [A B].
  split; [exact A|].
  apply (B "build"); [discriminate | reflexivity].
Defined.

Section Aborting.

Context {env : Environment}.






End Aborting.



(** C10: a stage name that is a key of [stages] still fails resolution
    with the unknown-stage error when its value is not a mapping; the
    loader accepts the document whatever the values of its stages are, so
    a resolution that succeeds for a name has found a mapping under it. *)
Theorem non_mapping_stage_is_unknown {env : Environment} :
  (forall (config : Config) (override_stage : string) (stage : pyval),
     Py.lookup (stages config) (Spec.resolved_name config override_stage)
     = Some stage ->
     Spec.is_mapping stage = false ->
     resolve_stage config override_stage
     = Raise (ValueError ("Unknown lifecycle stage: "
                          ++ Spec.resolved_name config override_stage)))
  /\ (forall (path : string) (d the_stages the_gates : dict) (name : string),
        config_file path = Some (PyDict d) ->
        Py.lookup d "stages" = Some (PyDict the_stages) ->
        Py.lookup d "gates" = Some (PyDict the_gates) ->
        Py.lookup d "current_stage" = Some (PyStr name) ->
        load_config path
        = Ok {| stages := the_stages; gates := the_gates; current_stage := name |})
  /\ (forall (config : Config) (override_stage stage_name : string)
             (stage_config : dict),
        resolve_stage config override_stage = Ok (stage_name, stage_config) ->
        Py.lookup (stages config) stage_name = Some (PyDict stage_config)).
Proof.
  split; [|split].
  - intros config override_stage stage L M.
    apply (resolve_stage_not_mapping config override_stage stage L M).
  - intros path d ss gs name F S G C. apply load_config_ok.
    exists d. simpl. auto.
  - intros config override_stage stage_name stage_config R.
    apply resolve_stage_ok in R. apply R.
Qed.

Lemma non_mapping_stage_is_unknown_witness :
  Py.lookup (stages Demo.odd_stages) "planning" = Some PyNone
  /\ resolve_stage Demo.odd_stages "planning"
     = Raise (ValueError "Unknown lifecycle stage: planning")
  /\ @load_config (Demo.holding Demo.odd_stages) DEFAULT_CONFIG_PATH
     = Ok Demo.odd_stages
  /\ Py.lookup (stages Demo.odd_stages) "release" = Some (Demo.stage []).
Proof.
  destruct (@non_mapping_stage_is_unknown (Demo.holding Demo.odd_stages))
    as (A & B & C).
  split; [reflexivity|]. split; [|split].
  - apply (A Demo.odd_stages "planning" PyNone); reflexivity.
  - apply (B DEFAULT_CONFIG_PATH
             [(PyStr "current_stage", PyStr "release");
              (PyStr "stages", PyDict (stages Demo.odd_stages));
              (PyStr "gates", PyDict (gates Demo.odd_stages))]
             (stages Demo.odd_stages) (gates Demo.odd_stages) "release");
      reflexivity.
  - apply (C Demo.odd_stages "" "release"). reflexivity.
Defined.



(** ** Validation before any gate runs *)




(** ** Unknown gate references *)



(** ** The execution phase *)








(** ** List mode *)




(** In list mode a stage that is not a mapping, though it is not the one
    resolved, stops the matrix with an [AttributeError]. *)
Example list_mode_odd_stage :
  @returned (Demo.holding Demo.odd_stages) Demo.list_mode [] = Raise AttributeError
  /\ @exit_code (Demo.holding Demo.odd_stages) Demo.list_mode [] = 1.
Proof. split; vm_compute; reflexivity. Qed.

(** ** Exit codes *)

Lemma failed_gates_nil {env : Environment} (cs : list Call) :
  failed_gates cs = [] <-> forall c, In c cs -> call_returncode c = 0.
Proof.
  unfold failed_gates. induction cs as [|c cs IH]; simpl.
  - split; [intros _ c [] | reflexivity].
  - unfold failed at 1. destruct (Z.eqb (call_returncode c) 0) eqn:E; simpl.
    + apply Z.eqb_eq in E. rewrite IH. split.
      * intros H c' [<-|I]; auto.
      * intros H c' I. apply H. right. exact I.
    + split; [discriminate|]. intros H. apply Z.eqb_neq in E.
      exfalso. apply E. apply H. left. reflexivity.
Qed.





(** ** Runs of the concrete environment *)

(** One passing gate: status 0 and the summary of one gate passed. *)
Example passing_run :
  @exit_code (Demo.holding Demo.passing) default_args [] = 0
  /\ @stdout (Demo.holding Demo.passing)
       (@final_state (Demo.holding Demo.passing) default_args [])
     = ["Running lifecycle gates for stage: planning";
        Py.repeat_str "-" 60;
        "[GATE] lint";
        "  command: true";
        "[PASS] lint" ++ Py.newline;
        Py.repeat_str "=" 60;
        "[SUMMARY] PASSED (1 gate(s))"].
Proof. split; vm_compute; reflexivity. Qed.

(** With two offending gates the validation reports the first declared. *)
Example first_offender_reported :
  @validate_gate_definitions (Demo.holding Demo.broken_gates) Demo.broken_gates
  = Raise (ValueError
             "Gate 'build' must define non-empty string list field 'command'").
Proof. vm_compute. reflexivity. Qed.

(** * Further properties of the runner *)

(** ** What is printed, line by line *)

Section Lines.

Context {env : Environment}.










End Lines.

(** ** Results of list mode and failed gates *)

Section Transcripts.

Context {env : Environment}.

(** In list mode [main] returns 0 or lets an exception through. *)
Lemma main_list_result (args : Args) (config : Config) (stage_name : string)
    (stage_config : dict) (st : State) :
  load_and_resolve args = Ok (config, stage_name, stage_config) ->
  arg_list args = true ->
  main args st
  = match print_stage_matrix config st with
    | (Ok _, st') => (Ok 0, st')
    | (Raise e, st') => (Raise e, st')
    end.
Proof.
  intros L A. unfold main. rewrite L, A. unfold bind.
  destruct (print_stage_matrix config st) as [[[]|e] st']; reflexivity.
Qed.

Lemma failed_gates_some (cs : list Call) :
  failed_gates cs <> [] ->
  exists c, In c cs /\ call_returncode c <> 0.
Proof.
  unfold failed_gates. induction cs as [|c cs IH]; cbn [filter map];
    [intros H; contradiction|].
  unfold failed at 1. destruct (Z.eqb (call_returncode c) 0) eqn:E; cbn [negb].
  - intros H. destruct (IH H) as (c' & I & N). exists c'. split; [right|]; auto.
  - intros _. exists c. split; [left; reflexivity|]. apply Z.eqb_neq. exact E.
Qed.

End Transcripts.

(** ** The ways an invocation can go *)

Lemma main_cases {env : Environment} (args : Args) (w : World) :
  (exists msg,
     load_and_resolve args = Raise (ValueError msg)
     /\ main args (start w)
        = (Ok 2, {| world := w; stdout := ["[ERROR] " ++ msg]; calls := [] |}))
  \/ (exists e,
        file_at (arg_config args) = Unreadable e
        /\ (forall msg, e <> ValueError msg)
        /\ main args (start w) = (Raise e, start w))
  \/ (exists config stage_name stage_config,
        load_and_resolve args = Ok (config, stage_name, stage_config)
        /\ arg_list args = true
        /\ main args (start w)
           = match print_stage_matrix config (start w) with
             | (Ok _, st') => (Ok 0, st')
             | (Raise e, st') => (Raise e, st')
             end)
  \/ (exists config stage_name stage_config,
        load_and_resolve args = Ok (config, stage_name, stage_config)
        /\ arg_list args = false
        /\ forallb (Spec.known config) (Spec.required_gates_of stage_config)
           = false
        /\ main args (start w)
           = (Ok 2,
              {| world := w;
                 stdout :=
                   [Spec.UnknownGateReference stage_name
                      (filter (fun gate => negb (Spec.known config gate))
                              (Spec.required_gates_of stage_config))];
                 calls := [] |}))
  \/ (exists config stage_name stage_config,
        reaches_execution args config stage_name stage_config
        /\ exists (new : list Call) (after : World),
             sequential w new after
             /\ Forall (runs_declared config) new
             /\ map call_gate new = Spec.required_gates_of stage_config
             /\ main args (start w)
                = (Ok (match failed_gates new with [] => 0 | _ :: _ => 1 end),
                   {| world := after;
                      stdout := transcript config stage_name
                                  (Spec.required_gates_of stage_config) new;
                      calls := new |}))
  \/ (exists config stage_name stage_config,
        reaches_execution args config stage_name stage_config
        /\ exists (new : list Call) (after : World) (e : exn)
                  (lines : list string),
             sequential w new after
             /\ Forall (runs_declared config) new
             /\ stops_at config (Spec.required_gates_of stage_config)
                  new after e
             /\ main args (start w)
                = (Raise e,
                   {| world := after; stdout := lines; calls := new |})).
Proof.
  destruct (load_and_resolve args) as [[[config stage_name] stage_config]|e] eqn:L.
  - destruct (arg_list args) eqn:A.
    + right. right. left. exists config, stage_name, stage_config.
      split; [reflexivity|]. split; [reflexivity|].
      apply (main_list_result args config stage_name stage_config);
        assumption.
    + destruct (forallb (Spec.known config)
                  (Spec.required_gates_of stage_config)) eqn:K.
      * assert (X : reaches_execution args config stage_name stage_config)
          by (repeat split; assumption).
        destruct (main_outcome args w config stage_name stage_config X)
          as (new & after & S & D & [(N & E)|(e & lines & St & E)]).
        -- right. right. right. right. left.
           exists config, stage_name, stage_config. split; [exact X|].
           exists new, after. auto.
        -- right. right. right. right. right.
           exists config, stage_name, stage_config. split; [exact X|].
           exists new, after, e, lines. auto.
      * right. right. right. left. exists config, stage_name, stage_config.
        split; [reflexivity|]. split; [reflexivity|]. split; [exact K|].
        apply (main_unknown args config stage_name stage_config (start w));
          assumption.
  - destruct e as [msg| | | | | |].
    + left. exists msg. split; [reflexivity|].
      apply (main_error args msg (start w) L).
    + right. left. exists AttributeError.
      destruct (load_and_resolve_raises args _ L) as [[m M]|F];
        [discriminate M|].
      split; [exact F|]. split; [discriminate|].
      apply main_uncaught; [exact L | discriminate].
    + right. left. exists TypeError.
      destruct (load_and_resolve_raises args _ L) as [[m M]|F];
        [discriminate M|].
      split; [exact F|]. split; [discriminate|].
      apply main_uncaught; [exact L | discriminate].
    + right. left. exists KeyError.
      destruct (load_and_resolve_raises args _ L) as [[m M]|F];
        [discriminate M|].
      split; [exact F|]. split; [discriminate|].
      apply main_uncaught; [exact L | discriminate].
    + right. left. exists IndexError.
      destruct (load_and_resolve_raises args _ L) as [[m M]|F];
        [discriminate M|].
      split; [exact F|]. split; [discriminate|].
      apply main_uncaught; [exact L | discriminate].
    + right. left. exists OSError.
      destruct (load_and_resolve_raises args _ L) as [[m M]|F];
        [discriminate M|].
      split; [exact F|]. split; [discriminate|].
      apply main_uncaught; [exact L | discriminate].
    + right. left. exists YAMLError.
      destruct (load_and_resolve_raises args _ L) as [[m M]|F];
        [discriminate M|].
      split; [exact F|]. split; [discriminate|].
      apply main_uncaught; [exact L | discriminate].
Qed.

(** ** Loading *)



(** X2: the loader accepts exactly the well-shaped documents: it returns a
    configuration if and only if the path holds a mapping whose [stages]
    and [gates] are mappings and whose [current_stage] is a string; nothing
    else about the document is checked. *)
Theorem loader_accepts_exactly {env : Environment} (path : string) :
  (exists config, load_config path = Ok config)
  <-> (exists document,
         config_file path = Some document
         /\ Spec.well_shaped document = true).
Proof.
  split.
  - intros [config L]. apply load_config_ok in L.
    destruct L as (d & F & S & G & C).
    exists (PyDict d). split; [exact F|].
    unfold Spec.well_shaped, Spec.has. rewrite S, G, C. reflexivity.
  - intros (document & F & W).
    unfold Spec.well_shaped, Spec.has in W.
    destruct document as [| | | | | |d| | | |]; try discriminate.
    destruct (Py.lookup d "stages") as [[| | | | | |ss| | | |]|] eqn:S;
      try discriminate.
    destruct (Py.lookup d "gates") as [[| | | | | |gs| | | |]|] eqn:G;
      try discriminate.
    destruct (Py.lookup d "current_stage") as [[| | | |name| | | | | |]|] eqn:C;
      try discriminate.
    exists {| stages := ss; gates := gs; current_stage := name |}.
    apply load_config_ok. exists d. auto.
Qed.

(** ** Validation *)

Lemma no_non_string (ss : list string) :
  existsb (fun c => negb (Spec.is_str c)) (map PyStr ss) = false.
Proof. induction ss as [|s ss IH]; [reflexivity | exact IH]. Qed.

(** The gates the validation lets through have a command that is a
    non-empty list of strings. *)
Lemma accepted_gate_shape (gate : pyval) :
  Spec.offending_gate gate = false <->
  exists g program arguments,
    gate = PyDict g
    /\ Py.lookup g "command" = Some (PyList (map PyStr (program :: arguments))).
Proof.
  split.
  - intros O. destruct gate as [| | | | | |g| | | |]; try discriminate.
    cbn [Spec.offending_gate] in O.
    destruct (Py.lookup g "command") as [command|] eqn:C; [|discriminate].
    destruct (Py.as_str_list command) as [[|p a]|] eqn:A.
    + destruct command; cbn [Py.as_str_list] in A; try discriminate.
      apply all_str_some in A. subst items. discriminate.
    + destruct command; cbn [Py.as_str_list] in A; try discriminate.
      apply all_str_some in A. subst items. exists g, p, a. auto.
    + exfalso.
      assert (T : Spec.offending_command (Py.lookup g "command") = true).
      { apply offending_command_spec. unfold Py.get. rewrite C.
        intros; congruence. }
      rewrite C in T. congruence.
  - intros (g & p & a & -> & C). cbn [Spec.offending_gate]. rewrite C.
    cbn [map Spec.offending_command]. apply (no_non_string (p :: a)).
Qed.

(** X3: the validation passes exactly when every gate of the catalog is a
    mapping whose [command] is a non-empty list of strings; an empty
    catalog passes, and the other keys of a gate are not looked at. *)
Theorem validation_accepts_exactly {env : Environment} (config : Config) :
  validate_gate_definitions config = Ok tt
  <-> (forall gate_name gate,
         In (gate_name, gate) (gates config) ->
         exists g program arguments,
           gate = PyDict g
           /\ Py.lookup g "command"
              = Some (PyList (map PyStr (program :: arguments)))).
Proof.
  unfold validate_gate_definitions. rewrite validate_gates_ok.
  split; intros H gate_name gate I.
  - apply accepted_gate_shape. apply (H gate_name gate I).
  - apply accepted_gate_shape. apply (H gate_name gate I).
Qed.

(** ** Resolution *)

(** X4: the resolution never reads the gate catalog, and with a non-empty
    override it never reads [current_stage] either: on two configurations
    with the same stages it gives the same result. *)
Theorem resolution_reads_stages_only (config config' : Config)
    (override_stage : string) :
  stages config = stages config' ->
  (override_stage = "" -> current_stage config = current_stage config') ->
  resolve_stage config override_stage = resolve_stage config' override_stage.
Proof.
  intros S C. unfold resolve_stage. rewrite S.
  destruct (String.eqb override_stage "") eqn:E; [|reflexivity].
  apply String.eqb_eq in E. rewrite (C E). reflexivity.
Qed.

Lemma resolution_reads_stages_only_witness :
  resolve_stage
    {| stages := stages Demo.failing; gates := []; current_stage := "nowhere" |}
    "release"
  = resolve_stage Demo.failing "release".
Proof.
  apply (resolution_reads_stages_only
           {| stages := stages Demo.failing; gates := [];
              current_stage := "nowhere" |}
           Demo.failing "release").
  - reflexivity.
  - discriminate.
Defined.

(** ** One gate *)



(** ** The loop *)

(** X6: running the gates of [xs ++ ys] is running those of [xs] and then
    those of [ys], from the state and with the failures the first part
    left; an exception in the first part ends both. *)
Theorem run_required_app {env : Environment} (catalog : dict)
    (xs ys : list string) (failures : list string) (st : State) :
  run_required catalog (xs ++ ys)%list failures st
  = bind (run_required catalog xs failures)
         (fun failures' => run_required catalog ys failures') st.
Proof.
  revert failures st. induction xs as [|x xs IH]; intros failures st.
  - reflexivity.
  - cbn [List.app run_required].
    destruct (Py.lookup catalog x) as [[| | | | | |g| | | |]|]; try reflexivity.
    unfold bind.
    destruct (run_gate repo_root x g st) as [[rc|e] st1]; [|reflexivity].
    rewrite IH. reflexivity.
Qed.

(** ** What a status tells *)



(** X8: whenever [main] returns 2 it has printed exactly one line, an
    [[ERROR]] line, has run no child and has left the world as it was. *)
Theorem abort_prints_one_error {env : Environment} (args : Args) (w : World) :
  returned args w = Ok 2 ->
  exists msg,
    final_state args w
    = {| world := w; stdout := ["[ERROR] " ++ msg]; calls := [] |}.
Proof.
  unfold returned, final_state. intros R.
  destruct (main_cases args w)
    as [(msg & _ & M)
       |[(e & _ & _ & M)
        |[(c & n & sc & L & A' & M)
         |[(c & n & sc & _ & _ & _ & M)
          |[(c & n & sc & X & new & after & _ & D & N & M)
           |(c & n & sc & X & new & after & e & lines & _ & D & St & M)]]]]].
  - rewrite M. exists msg. reflexivity.
  - rewrite M in R. discriminate R.
  - rewrite M in R.
    destruct (print_stage_matrix c (start w)) as [[[]|e] st']; discriminate R.
  - rewrite M.
    exists ("Stage '" ++ n ++ "' references unknown gates: "
            ++ Py.join ", "
                 (filter (fun gate => negb (Spec.known c gate))
                         (Spec.required_gates_of sc))).
    reflexivity.
  - rewrite M in R. cbn [fst] in R.
    destruct (failed_gates new); discriminate R.
  - rewrite M in R. discriminate R.
Qed.

Lemma abort_prints_one_error_witness :
  exists msg,
    @final_state (Demo.holding Demo.dangling) default_args []
    = @mkState (Demo.holding Demo.dangling) [] ["[ERROR] " ++ msg] [].
Proof.
  apply (@abort_prints_one_error (Demo.holding Demo.dangling) default_args []).
  vm_compute. reflexivity.
Defined.

(** X9: outside list mode, when [main] returns 0 the configuration loaded,
    validated and resolved, every required gate is in the catalog, every
    one of them was run, in order, and every child returned 0. *)
Theorem pass_means_all_gates_passed {env : Environment} (args : Args) (w : World) :
  arg_list args = false ->
  returned args w = Ok 0 ->
  exists config stage_name stage_config,
    reaches_execution args config stage_name stage_config
    /\ gates_run (final_state args w) = Spec.required_gates_of stage_config
    /\ forall c, In c (calls (final_state args w)) -> call_returncode c = 0.
Proof.
  unfold returned, final_state, gates_run. intros A R.
  destruct (main_cases args w)
    as [(msg & _ & M)
       |[(e & _ & _ & M)
        |[(c & n & sc & L & A' & M)
         |[(c & n & sc & _ & _ & _ & M)
          |[(c & n & sc & X & new & after & _ & D & N & M)
           |(c & n & sc & X & new & after & e & lines & _ & D & St & M)]]]]].
  - rewrite M in R. discriminate R.
  - rewrite M in R. discriminate R.
  - congruence.
  - rewrite M in R. discriminate R.
  - rewrite M in *. cbn [fst snd calls] in *.
    exists c, n, sc. split; [exact X|]. split; [exact N|].
    apply failed_gates_nil.
    destruct (failed_gates new); [reflexivity | discriminate R].
  - rewrite M in R. discriminate R.
Qed.

Lemma pass_means_all_gates_passed_witness :
  exists config stage_name stage_config,
    @reaches_execution (Demo.holding Demo.passing) default_args
      config stage_name stage_config
    /\ @gates_run (Demo.holding Demo.passing)
         (@final_state (Demo.holding Demo.passing) default_args [])
       = Spec.required_gates_of stage_config
    /\ forall c,
         In c (@calls (Demo.holding Demo.passing)
                 (@final_state (Demo.holding Demo.passing) default_args [])) ->
         call_returncode c = 0.
Proof.
  apply (@pass_means_all_gates_passed (Demo.holding Demo.passing)
           default_args []).
  - reflexivity.
  - vm_compute. reflexivity.
Defined.

(** X10: [main] returns 1 only from a run: list mode is off, the execution
    phase was reached, and some required gate that was run returned a
    non-zero code. *)
Theorem failure_means_gate_failed {env : Environment} (args : Args) (w : World) :
  returned args w = Ok 1 ->
  arg_list args = false
  /\ exists config stage_name stage_config,
       reaches_execution args config stage_name stage_config
       /\ exists c,
            In c (calls (final_state args w))
            /\ In (call_gate c) (Spec.required_gates_of stage_config)
            /\ call_returncode c <> 0.
Proof.
  unfold returned, final_state. intros R.
  destruct (main_cases args w)
    as [(msg & _ & M)
       |[(e & _ & _ & M)
        |[(c & n & sc & L & A' & M)
         |[(c & n & sc & _ & _ & _ & M)
          |[(c & n & sc & X & new & after & _ & D & N & M)
           |(c & n & sc & X & new & after & e & lines & _ & D & St & M)]]]]].
  - rewrite M in R. discriminate R.
  - rewrite M in R. discriminate R.
  - rewrite M in R.
    destruct (print_stage_matrix c (start w)) as [[[]|e] st']; discriminate R.
  - rewrite M in R. discriminate R.
  - rewrite M in *. cbn [fst snd calls] in *.
    split; [apply X|]. exists c, n, sc. split; [exact X|].
    destruct (failed_gates_some new) as (call & I & Z0).
    + destruct (failed_gates new); [discriminate R | discriminate].
    + exists call. split; [exact I|]. split; [|exact Z0].
      rewrite <- N. apply in_map. exact I.
  - rewrite M in R. discriminate R.
Qed.

Lemma failure_means_gate_failed_witness :
  @arg_list default_args = false
  /\ exists config stage_name stage_config,
       @reaches_execution (Demo.holding Demo.failing) default_args
         config stage_name stage_config
       /\ exists c,
            In c (@calls (Demo.holding Demo.failing)
                    (@final_state (Demo.holding Demo.failing) default_args []))
            /\ In (call_gate c) (Spec.required_gates_of stage_config)
            /\ call_returncode c <> 0.
Proof.
  apply (@failure_means_gate_failed (Demo.holding Demo.failing) default_args []).
  vm_compute. reflexivity.
Defined.

(** ** The list of stages *)





(** A description that is bytes is stripped and shown; required gates
    that are a number cannot be iterated over. *)
Example list_mode_bytes_description :
  @returned (Demo.holding Demo.binary_description) Demo.list_mode [] = Ok 0.
Proof. vm_compute. reflexivity. Qed.

Example list_mode_numeric_gates :
  @returned (Demo.holding Demo.numeric_gates) Demo.list_mode []
  = Raise TypeError.
Proof. vm_compute. reflexivity. Qed.

(** ** The transcript of a run *)

(** X13: a run that reaches the execution phase and gets through its
    gates ([main] returns) has printed exactly its transcript: the heading
    with the stage name, a rule, for each child in order the gate's name,
    its description when it has one, its command joined by spaces and the
    pass or fail line with the exit code, a rule, and the summary. *)
Theorem run_prints_transcript {env : Environment} (args : Args) (w : World)
    (config : Config) (stage_name : string) (stage_config : dict)
    (code : Z) :
  reaches_execution args config stage_name stage_config ->
  returned args w = Ok code ->
  stdout (final_state args w)
  = transcript config stage_name (Spec.required_gates_of stage_config)
      (calls (final_state args w)).
Proof.
  intros X. unfold final_state, returned.
  destruct (main_outcome args w config stage_name stage_config X)
    as (new & after & _ & _ & [(_ & M)|(e & lines & _ & M)]);
    rewrite M; [reflexivity|].
  intros R. discriminate R.
Qed.

Lemma run_prints_transcript_witness :
  @stdout (Demo.holding Demo.failing)
    (@final_state (Demo.holding Demo.failing) default_args [])
  = @transcript (Demo.holding Demo.failing) Demo.failing "planning"
      ["lint"; "build"; "test"]
      (@calls (Demo.holding Demo.failing)
         (@final_state (Demo.holding Demo.failing) default_args [])).
Proof.
  apply (@run_prints_transcript (Demo.holding Demo.failing) default_args []
           Demo.failing "planning"
           [(PyStr "required_gates",
             PyList [PyStr "lint"; PyStr "build"; PyStr "test"])] 1).
  - repeat split; reflexivity.
  - vm_compute. reflexivity.
Defined.

(** ** What is launched *)

(** X14: every child an invocation runs has a command with a program in
    it -- the validation has excluded the empty command -- which is the
    one the catalog declares for its gate, and runs in the repository
    root. *)
Theorem children_run_declared_commands {env : Environment}
    (args : Args) (w : World) (c : Call) :
  In c (calls (final_state args w)) ->
  call_cwd c = repo_root
  /\ exists program arguments,
       call_command c = program :: arguments
       /\ exists config stage_name stage_config g,
            load_and_resolve args = Ok (config, stage_name, stage_config)
            /\ Py.lookup (gates config) (call_gate c) = Some (PyDict g)
            /\ Py.lookup g "command"
               = Some (PyList (map PyStr (program :: arguments))).
Proof.
  unfold final_state. intros I.
  assert (G : forall config stage_name stage_config (new : list Call),
                reaches_execution args config stage_name stage_config ->
                Forall (runs_declared config) new ->
                In c new ->
                call_cwd c = repo_root
                /\ exists program arguments,
                     call_command c = program :: arguments
                     /\ exists config stage_name stage_config g,
                          load_and_resolve args
                          = Ok (config, stage_name, stage_config)
                          /\ Py.lookup (gates config) (call_gate c)
                             = Some (PyDict g)
                          /\ Py.lookup g "command"
                             = Some (PyList (map PyStr (program :: arguments)))).
  { intros config n sc new X D I'.
    rewrite Forall_forall in D.
    destruct (D c I') as (g & command & G & C & A & R).
    split; [exact R|].
    destruct X as (L & _).
    pose proof L as L'. apply load_and_resolve_ok in L'.
    destruct L' as (_ & V & _).
    destruct (validated_gate _ _ _ V G) as (g' & command' & p & a & E & C' & A').
    injection E as <-. rewrite C in C'. injection C' as <-.
    rewrite A in A'. injection A' as A'.
    exists p, a. split; [exact A'|].
    exists config, n, sc, g. split; [exact L|]. split; [exact G|].
    rewrite C. f_equal.
    destruct command; cbn [Py.as_str_list] in A; try discriminate.
    apply all_str_some in A. rewrite A, A'. reflexivity. }
  destruct (main_cases args w)
    as [(msg & _ & M)
       |[(e & _ & _ & M)
        |[(cfg & n & sc & L & A' & M)
         |[(cfg & n & sc & _ & _ & _ & M)
          |[(cfg & n & sc & X & new & after & _ & D & N & M)
           |(cfg & n & sc & X & new & after & e & lines & _ & D & St & M)]]]]].
  - rewrite M in I. destruct I.
  - rewrite M in I. destruct I.
  - destruct (main_list args cfg n sc (start w) L A') as [(_ & C & _) _].
    rewrite C in I. destruct I.
  - rewrite M in I. destruct I.
  - rewrite M in I. cbn [snd calls] in I. apply (G cfg n sc new X D I).
  - rewrite M in I. cbn [snd calls] in I. apply (G cfg n sc new X D I).
Qed.

Lemma children_run_declared_commands_witness :
  call_cwd (@mkCall (Demo.holding Demo.failing)
              "test" ["pytest"; "-q"] "/repo" [["false"]; ["true"]] 1
              [["false"]; ["true"]; ["pytest"; "-q"]])
  = @repo_root (Demo.holding Demo.failing).
Proof.
  apply (@children_run_declared_commands (Demo.holding Demo.failing)
           default_args []).
  vm_compute. right. right. left. reflexivity.
Defined.

(** ** A configuration file that cannot be read *)

(** A file the YAML parser rejects: the error is not a [ValueError], so it
    leaves [main] and the process ends with status 1, nothing printed.  A
    file that cannot be decoded: the error is a [ValueError], so [main]
    reports it and returns 2. *)
Example unparsable_config :
  @returned (Demo.unreadable YAMLError) default_args [] = Raise YAMLError
  /\ @exit_code (Demo.unreadable YAMLError) default_args [] = 1
  /\ @stdout (Demo.unreadable YAMLError)
       (@final_state (Demo.unreadable YAMLError) default_args []) = [].
Proof. repeat split. Qed.

Example undecodable_config :
  @returned (Demo.unreadable (ValueError "invalid start byte")) default_args []
  = Ok 2
  /\ @stdout (Demo.unreadable (ValueError "invalid start byte"))
       (@final_state (Demo.unreadable (ValueError "invalid start byte"))
          default_args [])
     = ["[ERROR] invalid start byte"].
Proof. split; reflexivity. Qed.
